(** * tesseract: src/arch/simddetect.cpp

    A shallow embedding of the SIMD detector and of the dot product
    dispatch of tesseract, and the properties of its design description
    that can be settled on it.

    The translation unit owns four kinds of process-wide objects:
    the function pointer [DotProduct], the string configuration variable
    [dotproduct], the five capability flags of [SIMDDetect], and (through
    [tprintf]) the diagnostic stream.  They are gathered in one record,
    [Globals], and the two procedures of the file, the constructor
    [SIMDDetect::SIMDDetect] and [SIMDDetect::Update], are written in a small
    state monad over it, statement by statement. *)

From Stdlib Require Import ZArith Bool List String Ascii Lia PrimFloat.
Import ListNotations.

Open Scope Z_scope.

(* ================================================================== *)
(** ** C strings *)

(** A [const char*] is read up to its terminating NUL.  A Rocq [string] may
    hold the character of code 0; the functions below stop there, as the C
    library does. *)
Module CStr.

Definition NUL : ascii := Ascii.zero.

(** The value of a character compared as [unsigned char]. *)
Definition uchar (c : ascii) : Z := Z.of_N (N_of_ascii c).

(** The characters the C library sees: everything before the first NUL. *)
Fixpoint c_str (s : string) : string :=
  match s with
  | EmptyString => EmptyString
  | String c r => if Ascii.eqb c NUL then EmptyString else String c (c_str r)
  end.

(** [strcmp]: zero when both strings agree up to their terminators, else
    the difference of the first two characters that differ. *)
Fixpoint strcmp (a b : string) : Z :=
  match a, b with
  | EmptyString, EmptyString => 0
  | EmptyString, String d _ => 0 - uchar d
  | String c _, EmptyString => uchar c - 0
  | String c a', String d b' =>
      if Ascii.eqb c d
      then (if Ascii.eqb c NUL then 0 else strcmp a' b')
      else uchar c - uchar d
  end.

(** The line feed of the format strings. *)
Definition LF : string := String (ascii_of_nat 10) EmptyString.

End CStr.
Import CStr.

(* ================================================================== *)
(** ** Build targets *)

(** The preprocessor symbols the file tests. *)
Record Macros := mkMacros {
  __x86_64__ : bool;
  __i386__ : bool;
  _WIN32 : bool;
  ANDROID_BUILD : bool;
  __GNUC__ : bool
}.

(** Lines 25-30: [X86_BUILD] is defined on an x86 or Windows target that is
    not an Android build. *)
Definition X86_BUILD (m : Macros) : bool :=
  (__x86_64__ m || __i386__ m || _WIN32 m) && negb (ANDROID_BUILD m).

(** The three ways the file compiles.  Under [X86_BUILD] the constructor
    takes the [__GNUC__] branch, else the [_WIN32] branch, else stops the
    build with [#error]. *)
Inductive Target := Portable | X86_GNUC | X86_WIN32.

Definition target_of (m : Macros) : option Target :=
  if X86_BUILD m then
    if __GNUC__ m then Some X86_GNUC
    else if _WIN32 m then Some X86_WIN32
    else None
  else Some Portable.

Definition x86 (t : Target) : bool :=
  match t with Portable => false | _ => true end.

(* ================================================================== *)
(** ** The CPU identification primitives *)

(** The four register words one CPUID query returns.  An [unsigned int]
    (GNU branch) or an [int] (Windows branch) is a [Z]; the file applies to
    them only [&] with a one-bit mask, [!= 0] and [>= 1], which read the same
    on [Z] as on a 32-bit word in two's complement. *)
Record Regs := mkRegs { eax : Z; ebx : Z; ecx : Z; edx : Z }.

(** What the compiler's headers give: they are not code of this file and
    are taken as they come.
    - [__get_cpuid leaf] of <cpuid.h>: [None] when it returns 0 (the leaf is
      not supported, the registers are left alone), else the registers;
    - [__cpuid_count leaf subleaf] of <cpuid.h>;
    - [__cpuid leaf] of <intrin.h>, filling [cpuInfo[0..3]]. *)
Record CPU := mkCPU {
  __get_cpuid : Z -> option Regs;
  __cpuid_count : Z -> Z -> Regs;
  __cpuid : Z -> Regs
}.

(** [(word & mask) != 0]. *)
Definition masked (word mask : Z) : bool := negb (Z.land word mask =? 0).

(** Machines to run the constructor on: one that answers no query, one
    whose leaf 1 reports SSE4.1 only, one that reports SSE4.1 and AVX and
    whose leaf 7 reports AVX2 and both AVX512 subsets, and one whose leaf 7
    has the three bits set although leaf 1 reports no AVX. *)
Definition no_regs : Regs := mkRegs 0 0 0 0.
Definition cpu_silent : CPU :=
  mkCPU (fun _ => None) (fun _ _ => no_regs) (fun _ => no_regs).
Definition cpu_sse : CPU :=
  mkCPU (fun _ => Some (mkRegs 0 0 0x00080000 0))
        (fun _ _ => no_regs)
        (fun leaf => if leaf =? 0 then mkRegs 13 0 0 0
                     else mkRegs 0 0 0x00080000 0).
Definition cpu_avx512 : CPU :=
  mkCPU (fun _ => Some (mkRegs 0 0 0x10080000 0))
        (fun _ _ => mkRegs 0 0x40010020 0 0)
        (fun leaf => if leaf =? 0 then mkRegs 13 0 0 0
                     else mkRegs 0 0 0x10080000 0).
Definition cpu_leaf7_only : CPU :=
  mkCPU (fun _ => Some (mkRegs 0 0 0x00080000 0))
        (fun _ _ => mkRegs 0 0x40010020 0 0)
        (fun leaf => if leaf =? 0 then mkRegs 13 0 0 0
                     else mkRegs 0 0 0x00080000 0).

(* ================================================================== *)
(** ** Kernels and the global state *)

Open Scope float_scope.

(** The type of a kernel: it takes [const double* u], [const double* v]
    and [int n] and returns a [double].  A vector is the
    list of the doubles its pointer gives access to; [None] is a read past
    that, for which C defines no result. *)
Definition DotProductFunction : Type :=
  list float -> list float -> Z -> option float.

(** Lines 68-72.  The [for] loop with its running [k] and [total]; [fuel]
    bounds the iterations and [None] at [O] means it was not enough. *)
Fixpoint DotProductGeneric_for (fuel : nat) (u v : list float) (n k : Z)
    (total : float) : option float :=
  match fuel with
  | O => None
  | S fuel' =>
      if (k <? n)%Z then
        match nth_error u (Z.to_nat k), nth_error v (Z.to_nat k) with
        | Some uk, Some vk =>
            DotProductGeneric_for fuel' u v n (k + 1)%Z (total + uk * vk)
        | _, _ => None
        end
      else Some total
  end.

Definition DotProductGeneric : DotProductFunction :=
  fun u v n => DotProductGeneric_for (S (Z.to_nat n)) u v n 0%Z 0.

(** Other orders of summation, to stand for the kernels of the other
    translation units when the procedures are run: from the last index
    down, and in [lanes] interleaved partial sums that are added at the
    end. *)
Definition DotProductBackwards : DotProductFunction :=
  fun u v n =>
    if (Z.to_nat n <=? List.length u)%nat && (Z.to_nat n <=? List.length v)%nat
    then Some (fold_right (fun k acc => acc + nth k u 0 * nth k v 0) 0
                          (seq 0 (Z.to_nat n)))
    else None.

Definition DotProductLanes (lanes : nat) : DotProductFunction :=
  fun u v n =>
    let lane l :=
      fold_left (fun acc k => if (k mod lanes =? l)%nat
                              then acc + nth k u 0 * nth k v 0 else acc)
                (seq 0 (Z.to_nat n)) 0 in
    if (Z.to_nat n <=? List.length u)%nat && (Z.to_nat n <=? List.length v)%nat
    then Some (fold_left (fun acc l => acc + lane l) (seq 0 lanes) 0)
    else None.

(** The summation the design description refers to: the products
    [u[k] * v[k]] for [k = 0 .. n-1], added in that order from zero. *)
Definition reference_sum (u v : list float) (n : nat) : float :=
  fold_left (fun acc k => acc + nth k u 0 * nth k v 0) (seq 0 n) 0.

Close Scope float_scope.

(** The objects of static storage duration the file reads and writes. *)
Record Globals := mkGlobals {
  DotProduct : option DotProductFunction;  (* [None]: the null pointer *)
  dotproduct : string;                     (* the STRING_VAR *)
  avx_available_ : bool;
  avx2_available_ : bool;
  avx512F_available_ : bool;
  avx512BW_available_ : bool;
  sse_available_ : bool;
  tprintf_out : list string                (* one entry per [tprintf] call *)
}.

(** Before any constructor runs: zero-initialised statics, and the
    configuration variable at its default of line 54. *)
Definition static_init : Globals :=
  mkGlobals None "auto" false false false false false [].

(* ------------------------------------------------------------------ *)
(** *** A state monad over [Globals] *)

Definition M (A : Type) : Type := Globals -> A * Globals.

Definition ret {A} (a : A) : M A := fun g => (a, g).
Definition bind {A B} (c : M A) (k : A -> M B) : M B :=
  fun g => let (a, g') := c g in k a g'.
Definition exec {A} (c : M A) (g : Globals) : Globals := snd (c g).

Declare Scope simd_scope.
Delimit Scope simd_scope with simd.
Notation "x <- c ;; k" := (bind c (fun x => k))
  (at level 61, c at next level, right associativity) : simd_scope.
Notation "c ;; k" := (bind c (fun _ => k))
  (at level 61, right associativity) : simd_scope.

(** Reads and writes of the individual globals. *)
Definition read {A} (field : Globals -> A) : M A := fun g => (field g, g).
Definition write (assign : Globals -> Globals) : M unit :=
  fun g => (tt, assign g).

Definition set_DotProduct (f : DotProductFunction) (g : Globals) : Globals :=
  mkGlobals (Some f) (dotproduct g) (avx_available_ g) (avx2_available_ g)
    (avx512F_available_ g) (avx512BW_available_ g) (sse_available_ g)
    (tprintf_out g).
Definition set_dotproduct (s : string) (g : Globals) : Globals :=
  mkGlobals (DotProduct g) s (avx_available_ g) (avx2_available_ g)
    (avx512F_available_ g) (avx512BW_available_ g) (sse_available_ g)
    (tprintf_out g).
Definition set_avx (b : bool) (g : Globals) : Globals :=
  mkGlobals (DotProduct g) (dotproduct g) b (avx2_available_ g)
    (avx512F_available_ g) (avx512BW_available_ g) (sse_available_ g)
    (tprintf_out g).
Definition set_avx2 (b : bool) (g : Globals) : Globals :=
  mkGlobals (DotProduct g) (dotproduct g) (avx_available_ g) b
    (avx512F_available_ g) (avx512BW_available_ g) (sse_available_ g)
    (tprintf_out g).
Definition set_avx512F (b : bool) (g : Globals) : Globals :=
  mkGlobals (DotProduct g) (dotproduct g) (avx_available_ g)
    (avx2_available_ g) b (avx512BW_available_ g) (sse_available_ g)
    (tprintf_out g).
Definition set_avx512BW (b : bool) (g : Globals) : Globals :=
  mkGlobals (DotProduct g) (dotproduct g) (avx_available_ g)
    (avx2_available_ g) (avx512F_available_ g) b (sse_available_ g)
    (tprintf_out g).
Definition set_sse (b : bool) (g : Globals) : Globals :=
  mkGlobals (DotProduct g) (dotproduct g) (avx_available_ g)
    (avx2_available_ g) (avx512F_available_ g) (avx512BW_available_ g) b
    (tprintf_out g).
Definition add_output (lines : list string) (g : Globals) : Globals :=
  mkGlobals (DotProduct g) (dotproduct g) (avx_available_ g)
    (avx2_available_ g) (avx512F_available_ g) (avx512BW_available_ g)
    (sse_available_ g) (tprintf_out g ++ lines).

(** [dotproduct.string()], and [dotproduct.set_value(v)]: the variable
    takes the characters of [v]. *)
Definition dotproduct_string : M string := read dotproduct.
Definition dotproduct_set_value (v : string) : M unit :=
  write (set_dotproduct (c_str v)).

(** [printf] formatting with one [%s] conversion. *)
Fixpoint format_s (fmt arg : string) : string :=
  match fmt with
  | EmptyString => EmptyString
  | String c r =>
      match r with
      | String d r' =>
          if (Ascii.eqb c "%" && Ascii.eqb d "s")%bool
          then append (c_str arg) r'
          else String c (format_s r arg)
      | EmptyString => String c EmptyString
      end
  end.

(** [tprintf(fmt)] and [tprintf(fmt, arg)]: one more entry on the
    diagnostic stream. *)
Definition tprintf (fmt : string) : M unit := write (add_output [fmt]).
Definition tprintf_s (fmt arg : string) : M unit :=
  write (add_output [format_s fmt arg]).

(* ================================================================== *)
(** ** The two procedures of the file *)

Open Scope simd_scope.
Open Scope string_scope.

(** The kernels of dotproductsse.cpp, dotproductavx.cpp and dotproduct.cpp:
    other translation units, any functions of the kernel type. *)
Class Kernels := mkKernels {
  DotProductSSE : DotProductFunction;
  DotProductAVX : DotProductFunction;
  DotProductNative : DotProductFunction
}.

Section Procedures.

Context {kernels : Kernels}.

(** Lines 74-76. *)
Definition SetDotProduct (function : DotProductFunction) : M unit :=
  write (set_DotProduct function).

(** Lines 89-104, the [__GNUC__] branch.  The four variables are reused by
    the second query, so the [ebx] tested for AVX2 and AVX512 is the one of
    leaf 7. *)
Definition detect_GNUC (cpu : CPU) : M unit :=
  match __get_cpuid cpu 1 with
  | Some r =>
      write (set_sse (masked (ecx r) 0x00080000)) ;;
      write (set_avx (masked (ecx r) 0x10000000)) ;;
      avx <- read avx_available_ ;;
      if avx : bool then
        let r := __cpuid_count cpu 7 0 in
        write (set_avx2 (masked (ebx r) 0x00000020)) ;;
        write (set_avx512F (masked (ebx r) 0x00010000)) ;;
        write (set_avx512BW (masked (ebx r) 0x40000000))
      else ret tt
  | None => ret tt
  end.

(** Lines 106-112, the [_WIN32] branch; [cpuInfo[0]] is EAX and
    [cpuInfo[2]] is ECX. *)
Definition detect_WIN32 (cpu : CPU) : M unit :=
  let cpuInfo := __cpuid cpu 0 in
  if eax cpuInfo >=? 1 then
    let cpuInfo := __cpuid cpu 1 in
    write (set_sse (masked (ecx cpuInfo) 0x00080000)) ;;
    write (set_avx (masked (ecx cpuInfo) 0x10000000))
  else ret tt.

(** Lines 118-127. *)
Definition select_by_autodetection : M unit :=
  avx <- read avx_available_ ;;
  if avx : bool then SetDotProduct DotProductAVX
  else
    sse <- read sse_available_ ;;
    if sse : bool then SetDotProduct DotProductSSE else ret tt.

(** Lines 83-128, [SIMDDetect::SIMDDetect()]. *)
Definition SIMDDetect_ctor (t : Target) (cpu : CPU) : M unit :=
  SetDotProduct DotProductGeneric ;;
  match t with
  | Portable => ret tt
  | X86_GNUC => detect_GNUC cpu ;; select_by_autodetection
  | X86_WIN32 => detect_WIN32 cpu ;; select_by_autodetection
  end.

(** [!strcmp(dotproduct.string(), word)]. *)
Definition dotproduct_is (word : string) : M bool :=
  value <- dotproduct_string ;;
  ret (strcmp value word =? 0)%Z.

(** Lines 156-165: the two lines on the diagnostic stream; the second one
    is a literal assembled by the preprocessor. *)
Definition unsupported_value (t : Target) : M unit :=
  value <- dotproduct_string ;;
  tprintf_s
    ("Warning, ignoring unsupported config variable value: dotproduct=%s" ++ LF)
    value ;;
  tprintf
    ("Support values for dotproduct: auto generic native"
       ++ (if x86 t then " avx sse" else "")
       ++ "." ++ LF).

(** Lines 145-165: what follows the [native] test, with and without
    [X86_BUILD]. *)
Definition Update_tail (t : Target) (dotproduct_method : string) : M string :=
  if x86 t then
    is_avx <- dotproduct_is "avx" ;;
    if is_avx : bool then
      SetDotProduct DotProductAVX ;; ret "avx"
    else
      is_sse <- dotproduct_is "sse" ;;
      if is_sse : bool then
        SetDotProduct DotProductSSE ;; ret "sse"
      else unsupported_value t ;; ret dotproduct_method
  else unsupported_value t ;; ret dotproduct_method.

(** Lines 130-168, [SIMDDetect::Update()]. *)
Definition Update (t : Target) : M unit :=
  let dotproduct_method := "generic" in
  dotproduct_method <-
    (is_auto <- dotproduct_is "auto" ;;
     if is_auto : bool then ret dotproduct_method
     else
       is_generic <- dotproduct_is "generic" ;;
       if is_generic : bool then
         SetDotProduct DotProductGeneric ;; ret "generic"
       else
         is_native <- dotproduct_is "native" ;;
         if is_native : bool then
           SetDotProduct DotProductNative ;; ret "native"
         else Update_tail t dotproduct_method) ;;
  dotproduct_set_value dotproduct_method.

(** The answer to the leaf 1 query, when the target makes it and the
    processor answers it. *)
Definition leaf1_query (t : Target) (cpu : CPU) : option Regs :=
  match t with
  | Portable => None
  | X86_GNUC => __get_cpuid cpu 1
  | X86_WIN32 =>
      if eax (__cpuid cpu 0) >=? 1 then Some (__cpuid cpu 1) else None
  end.

(** The state once static initialisation is over: the constructor of
    [SIMDDetect::detector] has run on the zero-initialised statics. *)
Definition after_static_init (t : Target) (cpu : CPU) : Globals :=
  exec (SIMDDetect_ctor t cpu) static_init.

(** What the design description calls [apply(preference)]: the
    configuration subsystem assigns the variable, then [Update] runs. *)
Definition apply (t : Target) (preference : string) (g : Globals) : Globals :=
  exec (dotproduct_set_value preference ;; Update t) g.

(** The values the design description says are accepted. *)
Definition vocabulary (t : Target) : list string :=
  (["auto"; "generic"; "native"] ++ (if x86 t then ["avx"; "sse"] else []))%list.

(** The two lines of the diagnostic, as the design description has them:
    the offending value, and the values accepted on the build target. *)
Definition warning_line (value : string) : string :=
  "Warning, ignoring unsupported config variable value: dotproduct="
    ++ c_str value ++ LF.
Definition support_line (t : Target) : string :=
  "Support values for dotproduct: " ++ concat " " (vocabulary t) ++ "." ++ LF.

(** The method names [Update] can write back. *)
Definition method_names : list string := ["generic"; "native"; "avx"; "sse"].

(** The kernels a program can bind. *)
Definition known_kernels : list DotProductFunction :=
  [DotProductGeneric; DotProductSSE; DotProductAVX; DotProductNative].

(** The states of a run: static initialisation, then any number of
    [apply] with any strings. *)
Inductive reachable (t : Target) (cpu : CPU) : Globals -> Prop :=
| reach_init : reachable t cpu (after_static_init t cpu)
| reach_apply : forall g preference,
    reachable t cpu g -> reachable t cpu (apply t preference g).

(** The five capability flags of a state, and a state with other flags. *)
Definition flags (g : Globals) : bool * bool * bool * bool * bool :=
  (sse_available_ g, avx_available_ g, avx2_available_ g,
   avx512F_available_ g, avx512BW_available_ g).
Definition set_flags (sse avx avx2 avx512F avx512BW : bool) (g : Globals)
    : Globals :=
  mkGlobals (DotProduct g) (dotproduct g) avx avx2 avx512F avx512BW sse
    (tprintf_out g).

(** The values of the variable that name a kernel on a build target, and
    the kernel each one names in [Update]. *)
Definition accepted_methods (t : Target) : list string :=
  (["generic"; "native"] ++ (if x86 t then ["avx"; "sse"] else []))%list.
Definition kernel_named (name : string) : DotProductFunction :=
  if name =? "generic" then DotProductGeneric
  else if name =? "native" then DotProductNative
  else if name =? "avx" then DotProductAVX
  else DotProductSSE.

End Procedures.

(** Stand-ins for the three kernels, to run the procedures with: the
    products added in two and in four interleaved partial sums, as a vector
    unit of that many lanes would, and the products added from the last
    index down. *)
Definition stand_ins : Kernels :=
  mkKernels (DotProductLanes 2) (DotProductLanes 4) DotProductBackwards.

(** The procedures linked with the stand-ins: the state static
    initialisation leaves, [apply] and [Update]. *)
Definition start (t : Target) (cpu : CPU) : Globals :=
  after_static_init (kernels := stand_ins) t cpu.
Definition run_apply (t : Target) (x : string) (g : Globals) : Globals :=
  apply (kernels := stand_ins) t x g.
Definition run_Update (t : Target) (g : Globals) : Globals :=
  exec (Update (kernels := stand_ins) t) g.

(* ================================================================== *)
(** ** C strings: what [strcmp] decides *)

Section Properties.

Context {kernels : Kernels}.

Lemma uchar_zero (c : ascii) : uchar c = 0%Z <-> c = NUL.
Proof.
  unfold uchar, NUL. split.
  - intro H. rewrite <- (ascii_N_embedding c).
    replace (N_of_ascii c) with 0%N by lia. reflexivity.
  - intros ->. reflexivity.
Qed.

Lemma uchar_inj (c d : ascii) : uchar c = uchar d -> c = d.
Proof.
  unfold uchar. intro H.
  rewrite <- (ascii_N_embedding c), <- (ascii_N_embedding d).
  f_equal. lia.
Qed.

Lemma c_str_idem (s : string) : c_str (c_str s) = c_str s.
Proof.
  induction s as [|c r IH]; simpl; [reflexivity|].
  destruct (Ascii.eqb c NUL) eqn:E; simpl; [reflexivity|].
  rewrite E, IH. reflexivity.
Qed.

(** [strcmp] reads its arguments up to their terminators only. *)
Lemma strcmp_c_str_l (a b : string) : strcmp (c_str a) b = strcmp a b.
Proof.
  revert b. induction a as [|c a' IH]; intro b; [reflexivity|].
  cbn [c_str]. destruct (Ascii.eqb c NUL) eqn:E.
  - apply Ascii.eqb_eq in E. subst c. destruct b as [|d b']; [reflexivity|].
    cbn [strcmp]. destruct (Ascii.eqb NUL d) eqn:E'; [|reflexivity].
    apply Ascii.eqb_eq in E'. subst d. reflexivity.
  - destruct b as [|d b']; [reflexivity|].
    cbn [strcmp]. destruct (Ascii.eqb c d); [|reflexivity].
    rewrite E. apply IH.
Qed.

Lemma strcmp_zero_iff (a b : string) :
  strcmp a b = 0%Z <-> c_str a = c_str b.
Proof.
  revert b. induction a as [|c a' IH]; intros [|d b']; cbn [strcmp c_str].
  - tauto.
  - destruct (Ascii.eqb d NUL) eqn:E.
    + apply Ascii.eqb_eq in E. subst d. split; reflexivity.
    + split; [|discriminate]. intro H.
      assert (uchar d = 0%Z) as H0 by lia.
      apply uchar_zero in H0. subst d. discriminate.
  - destruct (Ascii.eqb c NUL) eqn:E.
    + apply Ascii.eqb_eq in E. subst c. split; reflexivity.
    + split; [|discriminate]. intro H.
      assert (uchar c = 0%Z) as H0 by lia.
      apply uchar_zero in H0. subst c. discriminate.
  - destruct (Ascii.eqb c d) eqn:E.
    + apply Ascii.eqb_eq in E. subst d.
      destruct (Ascii.eqb c NUL); [tauto|].
      rewrite IH. split; [intros ->; reflexivity | congruence].
    + assert (c <> d) as Hcd by (apply Ascii.eqb_neq; exact E).
      split.
      * intro H. exfalso. apply Hcd, uchar_inj. lia.
      * intro H. exfalso.
        destruct (Ascii.eqb c NUL) eqn:Ec, (Ascii.eqb d NUL) eqn:Ed;
          try discriminate.
        -- apply Ascii.eqb_eq in Ec, Ed. congruence.
        -- congruence.
Qed.

(** The test [!strcmp(value, word)] as a boolean. *)
Lemma strcmp_eqb (value word : string) :
  (strcmp value word =? 0)%Z = String.eqb (c_str value) (c_str word).
Proof.
  destruct (String.eqb_spec (c_str value) (c_str word)) as [H|H].
  - apply Z.eqb_eq, strcmp_zero_iff, H.
  - apply Z.eqb_neq. rewrite strcmp_zero_iff. exact H.
Qed.

(* ================================================================== *)
(** ** Targets, masks and bits *)

(** The x86 branches of the file are those compiled under [X86_BUILD]. *)
Lemma x86_is_X86_BUILD (m : Macros) (t : Target) :
  target_of m = Some t -> x86 t = X86_BUILD m.
Proof.
  unfold target_of. destruct (X86_BUILD m).
  - destruct (__GNUC__ m); [intros [= <-]; reflexivity|].
    destruct (_WIN32 m); [intros [= <-]; reflexivity | discriminate].
  - intros [= <-]. reflexivity.
Qed.

(** A test against a one-bit mask reads that bit, of an [unsigned int] as of
    an [int]. *)
Lemma masked_pow2 (word k : Z) :
  (0 <= k)%Z -> masked word (2 ^ k) = Z.testbit word k.
Proof.
  intro Hk. unfold masked.
  destruct (Z.testbit word k) eqn:E.
  - apply negb_true_iff, Z.eqb_neq. intro H.
    assert (Z.testbit (Z.land word (2 ^ k)) k = true) as Hb
      by (rewrite Z.land_spec, E, Z.pow2_bits_true; auto).
    rewrite H, Z.bits_0 in Hb. discriminate.
  - apply negb_false_iff, Z.eqb_eq, Z.bits_inj'. intros m Hm.
    rewrite Z.land_spec, Z.bits_0, Z.pow2_bits_eqb by assumption.
    destruct (Z.eqb_spec k m) as [->|_].
    + rewrite E. reflexivity.
    + apply andb_false_r.
Qed.

(* ================================================================== *)
(** ** The generic kernel *)

Open Scope float_scope.

(** The loop from [k] on, given enough fuel and vectors of at least [n]
    elements, adds the remaining products to [total]. *)
Lemma DotProductGeneric_for_sum (u v : list float) (n : Z) :
  (n <= Z.of_nat (List.length u))%Z ->
  (n <= Z.of_nat (List.length v))%Z ->
  forall (fuel : nat) (k : Z) (total : float),
    (0 <= k <= n)%Z ->
    (Z.to_nat (n - k) < fuel)%nat ->
    DotProductGeneric_for fuel u v n k total =
    Some (fold_left (fun acc i => acc + nth i u 0 * nth i v 0)
                    (seq (Z.to_nat k) (Z.to_nat (n - k))) total).
Proof.
  intros Hu Hv fuel.
  induction fuel as [|fuel IH]; intros k total Hk Hfuel; [lia|].
  simpl. destruct (Z.ltb_spec k n) as [Hlt|Hge].
  - rewrite (nth_error_nth' u 0), (nth_error_nth' v 0) by lia.
    rewrite IH by lia.
    replace (Z.to_nat (n - k)) with (S (Z.to_nat (n - (k + 1)))) by lia.
    replace (Z.to_nat (k + 1)) with (S (Z.to_nat k)) by lia.
    reflexivity.
  - replace (Z.to_nat (n - k)) with O by lia. reflexivity.
Qed.

(** The generic kernel is total on vectors of at least [n] elements, and
    its result is the reference summation. *)
Lemma DotProductGeneric_reference (u v : list float) (n : Z) :
  (0 <= n)%Z ->
  (n <= Z.of_nat (List.length u))%Z ->
  (n <= Z.of_nat (List.length v))%Z ->
  DotProductGeneric u v n = Some (reference_sum u v (Z.to_nat n)).
Proof.
  intros Hn Hu Hv. unfold DotProductGeneric, reference_sum.
  rewrite (DotProductGeneric_for_sum u v n Hu Hv) by lia.
  replace (n - 0)%Z with n by lia. reflexivity.
Qed.

(** A negative length runs no iteration. *)
Lemma DotProductGeneric_negative (u v : list float) (n : Z) :
  (n <= 0)%Z -> DotProductGeneric u v n = Some 0.
Proof.
  intro Hn. unfold DotProductGeneric.
  replace (Z.to_nat n) with O by lia. simpl.
  destruct (Z.ltb_spec 0 n); [lia | reflexivity].
Qed.

Close Scope float_scope.

(* ================================================================== *)
(** ** The procedures as state transformers *)

Ltac run_procedure :=
  cbv beta iota zeta delta
    [apply exec Update Update_tail unsupported_value dotproduct_is
     dotproduct_string dotproduct_set_value SetDotProduct tprintf tprintf_s
     SIMDDetect_ctor detect_GNUC detect_WIN32 select_by_autodetection
     after_static_init read write bind ret fst snd].

Lemma format_warning (value : string) :
  format_s
    ("Warning, ignoring unsupported config variable value: dotproduct=%s" ++ LF)
    value
  = warning_line value.
Proof. reflexivity. Qed.

Lemma format_support (t : Target) :
  "Support values for dotproduct: auto generic native"
     ++ (if x86 t then " avx sse" else "") ++ "." ++ LF
  = support_line t.
Proof. destruct t; reflexivity. Qed.

(** [apply] is [Update] on the state in which the variable was assigned. *)
Lemma apply_unfold (t : Target) (preference : string) (g : Globals) :
  apply t preference g = exec (Update t) (set_dotproduct (c_str preference) g).
Proof. reflexivity. Qed.

(** The whole of [Update] at once: the branch is chosen by the characters
    of the variable, the kernel is rebound in four of the six branches, and
    the variable is assigned in all of them. *)
Lemma exec_Update (t : Target) (g : Globals) :
  exec (Update t) g =
  let value := c_str (dotproduct g) in
  if value =? "auto" then set_dotproduct "generic" g
  else if value =? "generic" then
    set_dotproduct "generic" (set_DotProduct DotProductGeneric g)
  else if value =? "native" then
    set_dotproduct "native" (set_DotProduct DotProductNative g)
  else if x86 t && (value =? "avx") then
    set_dotproduct "avx" (set_DotProduct DotProductAVX g)
  else if x86 t && (value =? "sse") then
    set_dotproduct "sse" (set_DotProduct DotProductSSE g)
  else
    set_dotproduct "generic"
      (add_output [warning_line (dotproduct g); support_line t] g).
Proof.
  assert (forall (out : list string) l1 l2,
            ((out ++ [l1]) ++ [l2] = out ++ [l1; l2])%list)
    as Hout by (intros; rewrite <- app_assoc; reflexivity).
  run_procedure.
  rewrite strcmp_eqb; change (c_str "auto") with "auto".
  destruct (c_str (dotproduct g) =? "auto"); [reflexivity | cbv beta iota].
  rewrite strcmp_eqb; change (c_str "generic") with "generic".
  destruct (c_str (dotproduct g) =? "generic"); [reflexivity | cbv beta iota].
  rewrite strcmp_eqb; change (c_str "native") with "native".
  destruct (c_str (dotproduct g) =? "native"); [reflexivity | cbv beta iota].
  destruct t; cbn [x86 andb]; cbv beta iota.
  1: unfold set_dotproduct, add_output; cbn; rewrite Hout; reflexivity.
  all: rewrite strcmp_eqb; change (c_str "avx") with "avx".
  all: destruct (c_str (dotproduct g) =? "avx"); [reflexivity | cbv beta iota].
  all: rewrite strcmp_eqb; change (c_str "sse") with "sse".
  all: destruct (c_str (dotproduct g) =? "sse"); [reflexivity | cbv beta iota].
  all: unfold set_dotproduct, add_output; cbn; rewrite Hout; reflexivity.
Qed.

(** The five masks of the constructor are single bits. *)
Lemma masks_are_bits (word : Z) :
  masked word 0x00080000 = Z.testbit word 19 /\
  masked word 0x10000000 = Z.testbit word 28 /\
  masked word 0x00000020 = Z.testbit word 5 /\
  masked word 0x00010000 = Z.testbit word 16 /\
  masked word 0x40000000 = Z.testbit word 30.
Proof.
  change 0x00080000%Z with (2 ^ 19)%Z. change 0x10000000%Z with (2 ^ 28)%Z.
  change 0x00000020%Z with (2 ^ 5)%Z. change 0x00010000%Z with (2 ^ 16)%Z.
  change 0x40000000%Z with (2 ^ 30)%Z.
  repeat split; apply masked_pow2; lia.
Qed.

(** The whole of the constructor at once, run on statics whose flags are
    zero-initialised, whatever the pointer, the variable and the stream
    hold: the flags are bits of the answers, and the kernel follows from
    the two flags of leaf 1. *)
Lemma exec_SIMDDetect_ctor (t : Target) (cpu : CPU)
    (d : option DotProductFunction) (s : string) (out : list string) :
  exec (SIMDDetect_ctor t cpu) (mkGlobals d s false false false false false out)
  = match leaf1_query t cpu with
    | None =>
        mkGlobals (Some DotProductGeneric) s false false false false false out
    | Some r =>
        let sse := Z.testbit (ecx r) 19 in
        let avx := Z.testbit (ecx r) 28 in
        let leaf7 := match t with
                     | X86_GNUC => avx
                     | _ => false
                     end in
        let r7 := __cpuid_count cpu 7 0 in
        mkGlobals
          (Some (if avx then DotProductAVX
                 else if sse then DotProductSSE else DotProductGeneric))
          s avx
          (leaf7 && Z.testbit (ebx r7) 5)
          (leaf7 && Z.testbit (ebx r7) 16)
          (leaf7 && Z.testbit (ebx r7) 30)
          sse out
    end.
Proof.
  destruct t; cbn [leaf1_query]; run_procedure.
  - reflexivity.
  - destruct (__get_cpuid cpu 1) as [r|]; [|reflexivity].
    destruct (masks_are_bits (ecx r)) as (<- & <- & _).
    destruct (masks_are_bits (ebx (__cpuid_count cpu 7 0)))
      as (_ & _ & <- & <- & <-).
    cbn. destruct (masked (ecx r) 268435456), (masked (ecx r) 524288);
      reflexivity.
  - destruct (eax (__cpuid cpu 0) >=? 1); [|reflexivity].
    destruct (masks_are_bits (ecx (__cpuid cpu 1))) as (<- & <- & _).
    cbn. destruct (masked (ecx (__cpuid cpu 1)) 268435456),
                  (masked (ecx (__cpuid cpu 1)) 524288);
      reflexivity.
Qed.

(** A value outside the vocabulary fails every test of [Update]. *)
Lemma outside_vocabulary (t : Target) (value : string) :
  ~ In value (vocabulary t) ->
  (value =? "auto") = false /\ (value =? "generic") = false /\
  (value =? "native") = false /\
  (x86 t && (value =? "avx"))%bool = false /\
  (x86 t && (value =? "sse"))%bool = false.
Proof.
  intro Hout.
  assert (forall word, In word (vocabulary t) -> (value =? word) = false)
    as Hword.
  { intros word Hin. apply String.eqb_neq. intros ->. exact (Hout Hin). }
  repeat split; try (apply Hword; cbn; tauto);
    destruct t; try reflexivity; apply Hword; cbn; tauto.
Qed.

(** [Update] rebinds the pointer to a known kernel or leaves it alone. *)
Lemma Update_binding (t : Target) (g : Globals) :
  DotProduct (exec (Update t) g) = DotProduct g \/
  exists f, In f known_kernels /\ DotProduct (exec (Update t) g) = Some f.
Proof.
  rewrite exec_Update. cbv zeta.
  destruct (c_str (dotproduct g) =? "auto"); [left; reflexivity|].
  destruct (c_str (dotproduct g) =? "generic").
  { right. exists DotProductGeneric. cbn. tauto. }
  destruct (c_str (dotproduct g) =? "native").
  { right. exists DotProductNative. cbn. tauto. }
  destruct (x86 t && (c_str (dotproduct g) =? "avx"))%bool.
  { right. exists DotProductAVX. cbn. tauto. }
  destruct (x86 t && (c_str (dotproduct g) =? "sse"))%bool.
  { right. exists DotProductSSE. cbn. tauto. }
  left. reflexivity.
Qed.

(** [Update] reads the variable through [strcmp] and [%s] only, so it does
    on any state what [apply] does with the value the variable holds. *)
Lemma Update_is_apply (t : Target) (g : Globals) :
  exec (Update t) g = apply t (dotproduct g) g.
Proof.
  rewrite apply_unfold, !exec_Update. cbv zeta.
  cbn [dotproduct set_dotproduct]. rewrite c_str_idem.
  unfold warning_line. rewrite c_str_idem.
  repeat match goal with
         | |- context [if ?b then _ else _] => destruct b
         end; reflexivity.
Qed.

(* ================================================================== *)
(** ** The properties of the design description *)

(** What [apply] does with the preference [auto]: the bound kernel and the
    diagnostic stream stay as they were, and the final [set_value] of
    [Update], which is outside the branches, makes the variable read
    [generic], whichever kernel is bound. *)
Theorem apply_auto_keeps_kernel (t : Target) (g : Globals) :
  DotProduct (apply t "auto" g) = DotProduct g /\
  tprintf_out (apply t "auto" g) = tprintf_out g /\
  dotproduct (apply t "auto" g) = "generic".
Proof.
  rewrite apply_unfold, exec_Update. cbn. repeat split.
Qed.

(** C2.  A preference outside the accepted vocabulary of the build target
    leaves the bound kernel unchanged, puts two lines on the diagnostic
    stream, the first naming the value and the second the vocabulary, and
    the variable reads [generic] afterwards. *)
Theorem apply_rejects_unsupported (t : Target) (x : string) (g : Globals) :
  ~ In (c_str x) (vocabulary t) ->
  DotProduct (apply t x g) = DotProduct g /\
  tprintf_out (apply t x g)
    = (tprintf_out g ++ [warning_line x; support_line t])%list /\
  dotproduct (apply t x g) = "generic".
Proof.
  intro Hout. rewrite apply_unfold, exec_Update. cbv zeta.
  cbn [dotproduct set_dotproduct]. rewrite c_str_idem.
  destruct (outside_vocabulary t (c_str x) Hout)
    as (-> & -> & -> & -> & ->).
  unfold warning_line. rewrite c_str_idem. cbn. repeat split.
Qed.

(** C3.  Once the constructor has run, an AVX flag that is false means the
    AVX2, AVX512F and AVX512BW flags are false. *)
Theorem no_avx_no_wider (t : Target) (cpu : CPU) :
  avx_available_ (after_static_init t cpu) = false ->
  avx2_available_ (after_static_init t cpu) = false /\
  avx512F_available_ (after_static_init t cpu) = false /\
  avx512BW_available_ (after_static_init t cpu) = false.
Proof.
  unfold after_static_init, static_init. rewrite exec_SIMDDetect_ctor.
  destruct (leaf1_query t cpu) as [r|]; cbn.
  - intros ->. destruct t; auto.
  - auto.
Qed.

(** C4.  In every state of a run, from the end of static initialisation
    on, the pointer holds one of the four kernels; it is never null. *)
Theorem DotProduct_always_bound (t : Target) (cpu : CPU) (g : Globals) :
  reachable t cpu g ->
  exists f, DotProduct g = Some f /\ In f known_kernels.
Proof.
  induction 1 as [|g preference Hreach (f & Hf & Hin)].
  - unfold after_static_init, static_init. rewrite exec_SIMDDetect_ctor.
    destruct (leaf1_query t cpu) as [r|]; cbv zeta; cbn [DotProduct].
    + destruct (Z.testbit (ecx r) 28), (Z.testbit (ecx r) 19);
        eexists; (split; [reflexivity | unfold known_kernels, In; auto 6]).
    + eexists; split; [reflexivity | unfold known_kernels, In; auto 6].
  - rewrite apply_unfold.
    destruct (Update_binding t (set_dotproduct (c_str preference) g))
      as [Hsame | (f' & Hin' & Hf')].
    + exists f. rewrite Hsame. auto.
    + exists f'. auto.
Qed.

(** C5.  Whatever the pointer held, the constructor leaves it bound to the
    AVX kernel if [avx_available_], else to the SSE kernel if
    [sse_available_], else to the generic kernel. *)
Theorem ctor_binds_best_kernel (t : Target) (cpu : CPU)
    (d : option DotProductFunction) (s : string) (out : list string) :
  let g := exec (SIMDDetect_ctor t cpu)
                (mkGlobals d s false false false false false out) in
  DotProduct g =
  Some (if avx_available_ g then DotProductAVX
        else if sse_available_ g then DotProductSSE
        else DotProductGeneric).
Proof.
  cbv zeta. rewrite exec_SIMDDetect_ctor.
  destruct (leaf1_query t cpu) as [r|]; reflexivity.
Qed.

Open Scope float_scope.

(** C6.  With the preference [generic], [apply] leaves a kernel bound that
    returns, for vectors of at least [n >= 0] doubles, the products
    [u[k] * v[k]] added in index order from zero, each operation rounded to
    a double; on [1,2,3] and [4,5,6] with [n = 3] that is exactly 32. *)
Theorem apply_generic_computes_reference (t : Target) (g : Globals) :
  exists f,
    DotProduct (apply t "generic" g) = Some f /\
    (forall (u v : list float) (n : Z),
        (0 <= n)%Z ->
        (n <= Z.of_nat (List.length u))%Z ->
        (n <= Z.of_nat (List.length v))%Z ->
        f u v n = Some (reference_sum u v (Z.to_nat n))) /\
    f [1; 2; 3] [4; 5; 6] 3%Z = Some 32.
Proof.
  exists DotProductGeneric. rewrite apply_unfold, exec_Update.
  split; [reflexivity|]. split.
  - intros u v n. apply DotProductGeneric_reference.
  - reflexivity.
Qed.

Close Scope float_scope.

(** C7.  On an x86 build target, the preference [avx] binds the AVX kernel
    and the preference [sse] the SSE kernel, in any state and so whatever
    the capability flags say; the variable then reads [avx], respectively
    [sse], and the flags are as before. *)
Theorem apply_avx_sse_unchecked (t : Target) (g : Globals) :
  x86 t = true ->
  (DotProduct (apply t "avx" g) = Some DotProductAVX /\
   dotproduct (apply t "avx" g) = "avx" /\
   avx_available_ (apply t "avx" g) = avx_available_ g) /\
  (DotProduct (apply t "sse" g) = Some DotProductSSE /\
   dotproduct (apply t "sse" g) = "sse" /\
   sse_available_ (apply t "sse" g) = sse_available_ g).
Proof.
  intro Hx86. rewrite !apply_unfold, !exec_Update. cbv zeta.
  cbn [dotproduct set_dotproduct]. rewrite Hx86. cbn. repeat split.
Qed.

(** C8.  [apply] with the preference [sse] twice in a row gives the bound
    kernel and the stored value that one call gives, on every build target
    and from every state. *)
Theorem apply_sse_idempotent (t : Target) (g : Globals) :
  DotProduct (apply t "sse" (apply t "sse" g))
    = DotProduct (apply t "sse" g) /\
  dotproduct (apply t "sse" (apply t "sse" g))
    = dotproduct (apply t "sse" g).
Proof.
  rewrite !apply_unfold, !exec_Update. cbv zeta.
  cbn [dotproduct set_dotproduct]. destruct t; cbn; split; reflexivity.
Qed.

(** C9.  After the constructor, a capability flag is set only if the
    query for it was made and answered with the bit of the feature set:
    ECX bit 19 (SSE4.1) and bit 28 (AVX) of leaf 1, EBX bits 5 (AVX2),
    16 (AVX512F) and 30 (AVX512BW) of leaf 7, which only the GNU branch asks
    and only after AVX.  Construction is a total function that emits no
    diagnostic, and without the SSE and AVX flags the generic kernel is
    bound. *)
Theorem flags_need_confirmation (t : Target) (cpu : CPU) :
  let g := after_static_init t cpu in
  (sse_available_ g = true ->
     exists r, leaf1_query t cpu = Some r /\ Z.testbit (ecx r) 19 = true) /\
  (avx_available_ g = true ->
     exists r, leaf1_query t cpu = Some r /\ Z.testbit (ecx r) 28 = true) /\
  (avx2_available_ g = true ->
     t = X86_GNUC /\ avx_available_ g = true /\
     Z.testbit (ebx (__cpuid_count cpu 7 0)) 5 = true) /\
  (avx512F_available_ g = true ->
     t = X86_GNUC /\ avx_available_ g = true /\
     Z.testbit (ebx (__cpuid_count cpu 7 0)) 16 = true) /\
  (avx512BW_available_ g = true ->
     t = X86_GNUC /\ avx_available_ g = true /\
     Z.testbit (ebx (__cpuid_count cpu 7 0)) 30 = true) /\
  (sse_available_ g = false -> avx_available_ g = false ->
     DotProduct g = Some DotProductGeneric) /\
  tprintf_out g = [].
Proof.
  cbv zeta. unfold after_static_init, static_init.
  rewrite exec_SIMDDetect_ctor.
  destruct (leaf1_query t cpu) as [r|]; cbv zeta;
    cbn [sse_available_ avx_available_ avx2_available_ avx512F_available_
         avx512BW_available_ DotProduct tprintf_out].
  - assert (forall bit,
               (match t with X86_GNUC => Z.testbit (ecx r) 28 | _ => false end
                && bit)%bool = true ->
               t = X86_GNUC /\ Z.testbit (ecx r) 28 = true /\ bit = true)
      as Hleaf7.
    { intros bit H. apply andb_true_iff in H. destruct H as [H7 Hbit].
      destruct t; try discriminate; auto. }
    split; [intro H; exists r; auto|].
    split; [intro H; exists r; auto|].
    split; [apply Hleaf7|]. split; [apply Hleaf7|]. split; [apply Hleaf7|].
    split; [intros -> ->; reflexivity | reflexivity].
  - repeat split; discriminate.
Qed.

(** C10.  After [Update], whatever the variable held, it holds one of the
    method names [generic], [native], [avx], [sse]; it does not hold
    [auto], and it does not hold a value that was rejected. *)
Theorem Update_stores_method_name (t : Target) (g : Globals) :
  let stored := dotproduct (exec (Update t) g) in
  In stored method_names /\
  stored <> "auto" /\
  (~ In (c_str (dotproduct g)) (vocabulary t) ->
   stored <> c_str (dotproduct g)).
Proof.
  cbv zeta. rewrite exec_Update. cbv zeta.
  destruct (c_str (dotproduct g) =? "auto").
  { cbn. repeat split; try tauto; discriminate. }
  destruct (c_str (dotproduct g) =? "generic").
  { cbn. repeat split; try tauto; discriminate. }
  destruct (c_str (dotproduct g) =? "native").
  { cbn. repeat split; try tauto; discriminate. }
  destruct (x86 t && (c_str (dotproduct g) =? "avx"))%bool eqn:Eavx.
  { apply andb_true_iff in Eavx. destruct Eavx as [Hx86 _].
    unfold vocabulary. rewrite Hx86.
    cbn. repeat split; try tauto; discriminate. }
  destruct (x86 t && (c_str (dotproduct g) =? "sse"))%bool eqn:Esse.
  { apply andb_true_iff in Esse. destruct Esse as [Hx86 _].
    unfold vocabulary. rewrite Hx86.
    cbn. repeat split; try tauto; discriminate. }
  cbn. destruct t; cbn; repeat split; try tauto; discriminate.
Qed.

(** X16.  In the state the constructor leaves, where the variable still
    holds its default [auto], one [Update] stores [generic], and a second
    one then binds the generic kernel, whatever the processor supports. *)
Lemma Update_twice_from_default (t : Target) (cpu : CPU) :
  dotproduct (after_static_init t cpu) = "auto" /\
  dotproduct (exec (Update t) (after_static_init t cpu)) = "generic" /\
  DotProduct (exec (Update t) (exec (Update t) (after_static_init t cpu)))
    = Some DotProductGeneric.
Proof.
  assert (dotproduct (after_static_init t cpu) = "auto") as Hauto.
  { unfold after_static_init, static_init. rewrite exec_SIMDDetect_ctor.
    destruct (leaf1_query t cpu); reflexivity. }
  split; [exact Hauto|].
  rewrite !exec_Update. cbv zeta. rewrite Hauto. cbn. split; reflexivity.
Qed.

End Properties.

(* ================================================================== *)
(** ** Runs on the sample machines *)

(** C1, at its failing input.  The property is that [Update] with the
    preference [auto] leaves the bound kernel unchanged and does not write
    to the configuration store.  On a GNU x86 build and a processor with
    AVX, the variable holds [auto] after static initialisation; one [Update]
    keeps the AVX kernel bound, as the comment of line 135 has it, but line
    167 overwrites the variable with [generic], the name of a kernel that
    is not the bound one. *)
Lemma Update_auto_overwrites_store :
  dotproduct (start X86_GNUC cpu_avx512) = "auto" /\
  DotProduct (run_Update X86_GNUC (start X86_GNUC cpu_avx512))
    = Some (DotProductLanes 4) /\
  dotproduct (run_Update X86_GNUC (start X86_GNUC cpu_avx512)) = "generic" /\
  ~ (DotProduct (run_Update X86_GNUC (start X86_GNUC cpu_avx512))
       = DotProduct (start X86_GNUC cpu_avx512) /\
     dotproduct (run_Update X86_GNUC (start X86_GNUC cpu_avx512))
       = dotproduct (start X86_GNUC cpu_avx512)).
Proof.
  split; [reflexivity|]. split; [reflexivity|]. split; [reflexivity|].
  intros [_ Hstore]. vm_compute in Hstore. discriminate Hstore.
Qed.

(** C2 at the scenario of the design description: [avx] on a build target
    that is not x86. *)
Lemma apply_rejects_unsupported_witness :
  ~ In (c_str "avx") (vocabulary Portable) /\
  DotProduct (run_apply Portable "avx" (start Portable cpu_silent))
    = DotProduct (start Portable cpu_silent) /\
  tprintf_out (run_apply Portable "avx" (start Portable cpu_silent))
    = (tprintf_out (start Portable cpu_silent)
         ++ [warning_line "avx"; support_line Portable])%list /\
  dotproduct (run_apply Portable "avx" (start Portable cpu_silent))
    = "generic".
Proof.
  assert (~ In (c_str "avx") (vocabulary Portable)) as Hout.
  { cbn. intros [H|[H|[H|[]]]]; discriminate H. }
  split; [exact Hout|].
  exact (apply_rejects_unsupported (kernels := stand_ins)
           Portable "avx" (start Portable cpu_silent) Hout).
Defined.

(** C3 on a processor whose leaf 7 has the AVX2 and AVX512 bits set while
    leaf 1 reports no AVX. *)
Lemma no_avx_no_wider_witness :
  avx_available_ (start X86_GNUC cpu_leaf7_only) = false /\
  avx2_available_ (start X86_GNUC cpu_leaf7_only) = false /\
  avx512F_available_ (start X86_GNUC cpu_leaf7_only) = false /\
  avx512BW_available_ (start X86_GNUC cpu_leaf7_only) = false.
Proof.
  split; [reflexivity|].
  exact (no_avx_no_wider (kernels := stand_ins) X86_GNUC cpu_leaf7_only
           eq_refl).
Defined.

(** C4 after static initialisation and two calls, one of them rejected. *)
Lemma DotProduct_always_bound_witness :
  reachable (kernels := stand_ins) X86_WIN32 cpu_sse
    (run_apply X86_WIN32 "native"
       (run_apply X86_WIN32 "avx2" (start X86_WIN32 cpu_sse))) /\
  exists f,
    DotProduct (run_apply X86_WIN32 "native"
                  (run_apply X86_WIN32 "avx2" (start X86_WIN32 cpu_sse)))
      = Some f /\
    In f (known_kernels (kernels := stand_ins)).
Proof.
  assert (reachable (kernels := stand_ins) X86_WIN32 cpu_sse
            (run_apply X86_WIN32 "native"
               (run_apply X86_WIN32 "avx2" (start X86_WIN32 cpu_sse))))
    as Hreach by (do 2 apply reach_apply; apply reach_init).
  split; [exact Hreach|].
  exact (DotProduct_always_bound (kernels := stand_ins) X86_WIN32 cpu_sse _
           Hreach).
Defined.

(** C7 on a machine that answers no query: no flag is set, and [avx] binds
    the AVX kernel all the same. *)
Lemma apply_avx_sse_unchecked_witness :
  x86 X86_GNUC = true /\
  avx_available_ (start X86_GNUC cpu_silent) = false /\
  (DotProduct (run_apply X86_GNUC "avx" (start X86_GNUC cpu_silent))
     = Some (DotProductLanes 4) /\
   dotproduct (run_apply X86_GNUC "avx" (start X86_GNUC cpu_silent)) = "avx" /\
   avx_available_ (run_apply X86_GNUC "avx" (start X86_GNUC cpu_silent))
     = avx_available_ (start X86_GNUC cpu_silent)) /\
  (DotProduct (run_apply X86_GNUC "sse" (start X86_GNUC cpu_silent))
     = Some (DotProductLanes 2) /\
   dotproduct (run_apply X86_GNUC "sse" (start X86_GNUC cpu_silent)) = "sse" /\
   sse_available_ (run_apply X86_GNUC "sse" (start X86_GNUC cpu_silent))
     = sse_available_ (start X86_GNUC cpu_silent)).
Proof.
  split; [reflexivity|]. split; [reflexivity|].
  exact (apply_avx_sse_unchecked (kernels := stand_ins) X86_GNUC
           (start X86_GNUC cpu_silent) eq_refl).
Defined.

(** The flags and the kernel on the sample machines: everything on the GNU
    branch, leaf 1 only on the Windows branch, nothing on other targets. *)
Example flags_on_sample_machines :
  let flags g := (sse_available_ g, avx_available_ g, avx2_available_ g,
                  avx512F_available_ g, avx512BW_available_ g) in
  flags (start X86_GNUC cpu_avx512) = (true, true, true, true, true) /\
  flags (start X86_WIN32 cpu_avx512) = (true, true, false, false, false) /\
  flags (start Portable cpu_avx512) = (false, false, false, false, false) /\
  flags (start X86_GNUC cpu_sse) = (true, false, false, false, false) /\
  DotProduct (start X86_GNUC cpu_avx512) = Some (DotProductLanes 4) /\
  DotProduct (start X86_GNUC cpu_sse) = Some (DotProductLanes 2) /\
  DotProduct (start Portable cpu_avx512) = Some DotProductGeneric.
Proof. repeat split. Qed.

(** The three summation orders agree on the vectors of the design
    description. *)
Example kernels_on_small_vectors :
  DotProductGeneric [1; 2; 3]%float [4; 5; 6]%float 3 = Some 32%float /\
  DotProductLanes 2 [1; 2; 3]%float [4; 5; 6]%float 3 = Some 32%float /\
  DotProductLanes 4 [1; 2; 3]%float [4; 5; 6]%float 3 = Some 32%float /\
  DotProductBackwards [1; 2; 3]%float [4; 5; 6]%float 3 = Some 32%float /\
  DotProductGeneric [1; 2; 3]%float [4; 5; 6]%float 4 = None.
Proof. repeat split. Qed.

(** A build has a target unless it is an x86 build with neither compiler
    symbol, which the file refuses with [#error]. *)
Example targets_of_builds :
  target_of (mkMacros true false false false true) = Some X86_GNUC /\
  target_of (mkMacros false false true false false) = Some X86_WIN32 /\
  target_of (mkMacros true false false true true) = Some Portable /\
  target_of (mkMacros false false false false true) = Some Portable /\
  target_of (mkMacros true false false false false) = None.
Proof. repeat split. Qed.

(* ================================================================== *)
(** ** Further properties of the two procedures *)

Section Further.

Context {kernels : Kernels}.

Ltac split_branches :=
  repeat match goal with
         | |- context [if ?b then _ else _] => destruct b eqn:?
         end.

(** X1.  [Update] neither reads nor writes the capability flags: it
    commutes with any assignment to them. *)
Theorem Update_ignores_flags (t : Target) (g : Globals)
    (sse avx avx2 avx512F avx512BW : bool) :
  exec (Update t) (set_flags sse avx avx2 avx512F avx512BW g)
  = set_flags sse avx avx2 avx512F avx512BW (exec (Update t) g).
Proof.
  rewrite !exec_Update. cbv zeta. cbn [dotproduct set_flags].
  split_branches; reflexivity.
Qed.

(** [Update] leaves the five flags as they are. *)
Lemma Update_keeps_flags (t : Target) (g : Globals) :
  flags (exec (Update t) g) = flags g.
Proof.
  rewrite exec_Update. cbv zeta. split_branches; reflexivity.
Qed.

(** X2.  [Update] is silent exactly on the vocabulary of the build target:
    the diagnostic stream is unchanged if and only if the characters of the
    variable are one of the accepted values. *)
Theorem Update_silent_iff_accepted (t : Target) (g : Globals) :
  tprintf_out (exec (Update t) g) = tprintf_out g
  <-> In (c_str (dotproduct g)) (vocabulary t).
Proof.
  rewrite exec_Update. cbv zeta.
  destruct (c_str (dotproduct g) =? "auto") eqn:E1.
  { apply String.eqb_eq in E1. rewrite E1. destruct t; cbn; tauto. }
  destruct (c_str (dotproduct g) =? "generic") eqn:E2.
  { apply String.eqb_eq in E2. rewrite E2. destruct t; cbn; tauto. }
  destruct (c_str (dotproduct g) =? "native") eqn:E3.
  { apply String.eqb_eq in E3. rewrite E3. destruct t; cbn; tauto. }
  destruct (x86 t && (c_str (dotproduct g) =? "avx"))%bool eqn:E4.
  { apply andb_true_iff in E4. destruct E4 as [Hx E4].
    apply String.eqb_eq in E4. rewrite E4.
    destruct t; try discriminate; cbn; tauto. }
  destruct (x86 t && (c_str (dotproduct g) =? "sse"))%bool eqn:E5.
  { apply andb_true_iff in E5. destruct E5 as [Hx E5].
    apply String.eqb_eq in E5. rewrite E5.
    destruct t; try discriminate; cbn; tauto. }
  apply String.eqb_neq in E1, E2, E3.
  cbn [tprintf_out set_dotproduct add_output]. split.
  - intro H. apply (f_equal (@List.length string)) in H.
    rewrite length_app in H. cbn in H. lia.
  - intro Hin. exfalso. unfold vocabulary in Hin.
    destruct t; cbn in Hin, E4, E5;
      try (apply String.eqb_neq in E4); try (apply String.eqb_neq in E5);
      intuition congruence.
Qed.

(** A method name accepted on the target selects its branch of [Update]:
    the kernel it names is bound and the name is stored. *)
Lemma Update_on_accepted_method (t : Target) (g : Globals) :
  In (c_str (dotproduct g)) (accepted_methods t) ->
  exec (Update t) g
  = set_dotproduct (c_str (dotproduct g))
      (set_DotProduct (kernel_named (c_str (dotproduct g))) g).
Proof.
  intro Hin. rewrite exec_Update. cbv zeta. unfold accepted_methods in Hin.
  destruct t; cbn in Hin;
    repeat (destruct Hin as [<- | Hin]; [reflexivity|]); destruct Hin.
Qed.

(** X3.  When the variable names a kernel accepted on the target,
    [Update] binds that kernel whatever was bound before, stores the same
    name back, and emits nothing. *)
Theorem Update_accepted_method (t : Target) (g : Globals) :
  In (c_str (dotproduct g)) (accepted_methods t) ->
  DotProduct (exec (Update t) g)
    = Some (kernel_named (c_str (dotproduct g))) /\
  dotproduct (exec (Update t) g) = c_str (dotproduct g) /\
  tprintf_out (exec (Update t) g) = tprintf_out g.
Proof.
  intro Hin. rewrite (Update_on_accepted_method t g Hin). repeat split.
Qed.

(** The value [Update] stores names a kernel accepted on the target. *)
Lemma Update_stored_accepted (t : Target) (g : Globals) :
  In (dotproduct (exec (Update t) g)) (accepted_methods t).
Proof.
  rewrite exec_Update. cbv zeta. unfold accepted_methods.
  destruct (c_str (dotproduct g) =? "auto"); [cbn; tauto|].
  destruct (c_str (dotproduct g) =? "generic"); [cbn; tauto|].
  destruct (c_str (dotproduct g) =? "native"); [cbn; tauto|].
  destruct t; cbn [x86 andb]; [cbn; tauto | |];
    (destruct (c_str (dotproduct g) =? "avx"); [cbn; tauto|]);
    (destruct (c_str (dotproduct g) =? "sse"); cbn; tauto).
Qed.

(** The accepted method names hold no NUL. *)
Lemma accepted_methods_c_str (t : Target) (name : string) :
  In name (accepted_methods t) -> c_str name = name.
Proof.
  unfold accepted_methods. destruct t; cbn;
    intros H; repeat (destruct H as [<- | H]; [reflexivity|]); destruct H.
Qed.

(** X4.  [Update] never rejects what [Update] stored: the stored value is
    a method name accepted on the build target (never [avx] or [sse] on a
    target that is not x86), so a second call in a row emits nothing. *)
Theorem Update_stores_accepted_method (t : Target) (g : Globals) :
  In (dotproduct (exec (Update t) g)) (accepted_methods t) /\
  tprintf_out (exec (Update t) (exec (Update t) g))
    = tprintf_out (exec (Update t) g).
Proof.
  pose proof (Update_stored_accepted t g) as Hin.
  split; [exact Hin|].
  rewrite (Update_on_accepted_method t (exec (Update t) g)); [reflexivity|].
  rewrite (accepted_methods_c_str t) by exact Hin. exact Hin.
Qed.

(** X5.  [Update] settles after two calls: a third call in a row, and so
    any later one, changes nothing at all. *)
Theorem Update_settles (t : Target) (g : Globals) :
  exec (Update t) (exec (Update t) (exec (Update t) g))
  = exec (Update t) (exec (Update t) g).
Proof.
  pose proof (Update_stored_accepted t g) as Hin.
  remember (exec (Update t) g) as g1 eqn:Hg1. clear Hg1.
  assert (c_str (dotproduct g1) = dotproduct g1) as Hc
    by (apply (accepted_methods_c_str t), Hin).
  rewrite (Update_on_accepted_method t g1) by (rewrite Hc; exact Hin).
  rewrite Update_on_accepted_method.
  - cbn [dotproduct set_dotproduct]. rewrite c_str_idem. reflexivity.
  - cbn [dotproduct set_dotproduct]. rewrite c_str_idem, Hc. exact Hin.
Qed.

(** X6.  [apply] is idempotent on the kernel, the stored value and the
    flags for every preference string, accepted or not. *)
Theorem apply_idempotent (t : Target) (x : string) (g : Globals) :
  DotProduct (apply t x (apply t x g)) = DotProduct (apply t x g) /\
  dotproduct (apply t x (apply t x g)) = dotproduct (apply t x g) /\
  flags (apply t x (apply t x g)) = flags (apply t x g).
Proof.
  rewrite !apply_unfold, !exec_Update. cbv zeta.
  cbn [dotproduct set_dotproduct]. rewrite !c_str_idem.
  split_branches; repeat split; congruence.
Qed.

(** X7.  On the GNU branch detection is exact: when [__get_cpuid] answers
    leaf 1, the SSE and AVX flags are ECX bits 19 and 28, and each of the
    AVX2, AVX512F and AVX512BW flags is the AVX bit together with EBX bit 5,
    16 or 30 of leaf 7; when it does not answer, every flag is false. *)
Theorem GNUC_flags_are_bits (cpu : CPU) :
  flags (after_static_init X86_GNUC cpu)
  = match __get_cpuid cpu 1 with
    | Some r =>
        let avx := Z.testbit (ecx r) 28 in
        let r7 := __cpuid_count cpu 7 0 in
        (Z.testbit (ecx r) 19, avx,
         avx && Z.testbit (ebx r7) 5,
         avx && Z.testbit (ebx r7) 16,
         avx && Z.testbit (ebx r7) 30)%bool
    | None => (false, false, false, false, false)
    end.
Proof.
  unfold after_static_init, static_init. rewrite exec_SIMDDetect_ctor.
  cbn [leaf1_query]. destruct (__get_cpuid cpu 1); reflexivity.
Qed.

(** X8.  On the Windows branch only leaf 1 is read, and only if leaf 0
    reports a highest leaf of at least 1: the SSE and AVX flags are then ECX
    bits 19 and 28, and the AVX2, AVX512F and AVX512BW flags are false on
    every processor. *)
Theorem WIN32_flags_are_bits (cpu : CPU) :
  flags (after_static_init X86_WIN32 cpu)
  = if (eax (__cpuid cpu 0) >=? 1)%Z
    then (Z.testbit (ecx (__cpuid cpu 1)) 19,
          Z.testbit (ecx (__cpuid cpu 1)) 28, false, false, false)
    else (false, false, false, false, false).
Proof.
  unfold after_static_init, static_init. rewrite exec_SIMDDetect_ctor.
  cbn [leaf1_query]. destruct (eax (__cpuid cpu 0) >=? 1)%Z; reflexivity.
Qed.

(** X9.  An Android build is never an [X86_BUILD]: whatever the
    architecture symbols and the processor, it compiles, no flag is set and
    the generic kernel is bound. *)
Theorem Android_build_is_generic (m : Macros) (cpu : CPU) :
  ANDROID_BUILD m = true ->
  target_of m = Some Portable /\
  flags (after_static_init Portable cpu)
    = (false, false, false, false, false) /\
  DotProduct (after_static_init Portable cpu) = Some DotProductGeneric.
Proof.
  intro Handroid. unfold target_of, X86_BUILD. rewrite Handroid.
  rewrite andb_false_r. repeat split.
Qed.

(** X10.  From any prior state, stale flags included, the constructor
    leaves the configuration variable and the diagnostic stream alone and
    the pointer bound to the generic, the SSE or the AVX kernel: never null,
    never the native kernel. *)
Theorem ctor_frame (t : Target) (cpu : CPU) (g : Globals) :
  dotproduct (exec (SIMDDetect_ctor t cpu) g) = dotproduct g /\
  tprintf_out (exec (SIMDDetect_ctor t cpu) g) = tprintf_out g /\
  exists f,
    DotProduct (exec (SIMDDetect_ctor t cpu) g) = Some f /\
    In f [DotProductGeneric; DotProductSSE; DotProductAVX].
Proof.
  assert (forall f, In f [DotProductGeneric; DotProductSSE; DotProductAVX] ->
                    exists f', Some f = Some f' /\
                      In f' [DotProductGeneric; DotProductSSE; DotProductAVX])
    as Hbound by eauto.
  cbv beta iota zeta delta
    [exec SIMDDetect_ctor detect_GNUC detect_WIN32 select_by_autodetection
     SetDotProduct read write bind ret fst snd].
  destruct t;
    [ | destruct (__get_cpuid cpu 1) as [r|]
      | destruct (eax (__cpuid cpu 0) >=? 1)%Z ];
    cbn; split_branches; cbn; split_branches; cbn;
    repeat split; apply Hbound; cbn; tauto.
Qed.

(** X11.  The capability flags are fixed by static initialisation: in
    every state of a run they are the flags the constructor computed. *)
Theorem reachable_flags_fixed (t : Target) (cpu : CPU) (g : Globals) :
  reachable t cpu g -> flags g = flags (after_static_init t cpu).
Proof.
  induction 1 as [|g preference Hreach IH]; [reflexivity|].
  rewrite apply_unfold, Update_keeps_flags. exact IH.
Qed.

(** X12.  On a target that is not x86 no run ever binds the SSE or the AVX
    kernel: the pointer holds the generic or the native kernel. *)
Theorem portable_runs_bind_no_vector_kernel
    (t : Target) (cpu : CPU) (g : Globals) :
  x86 t = false ->
  reachable t cpu g ->
  DotProduct g = Some DotProductGeneric \/
  DotProduct g = Some DotProductNative.
Proof.
  intros Hx86. destruct t; try discriminate.
  induction 1 as [|g preference Hreach IH]; [left; reflexivity|].
  rewrite apply_unfold, exec_Update. cbv zeta. cbn [x86 andb].
  split_branches; cbn; auto.
Qed.

Open Scope float_scope.

Lemma reference_sum_S (u v : list float) (n : nat) :
  reference_sum u v (S n)
  = reference_sum u v n + nth n u 0 * nth n v 0.
Proof.
  unfold reference_sum. rewrite seq_S, fold_left_app. reflexivity.
Qed.

Lemma fold_left_agree (f h : float -> nat -> float) (l : list nat) :
  (forall acc k, In k l -> f acc k = h acc k) ->
  forall acc, fold_left f l acc = fold_left h l acc.
Proof.
  induction l as [|k l IH]; intros Hfh acc; [reflexivity|].
  cbn [fold_left]. rewrite Hfh by (left; reflexivity).
  apply IH. intros acc' k' Hin. apply Hfh. right. exact Hin.
Qed.

(** The loop overruns the shorter vector when [n] exceeds its length. *)
Lemma DotProductGeneric_for_overrun (u v : list float) (n : Z) :
  (Z.of_nat (Nat.min (List.length u) (List.length v)) < n)%Z ->
  forall (fuel : nat) (k : Z) (total : float),
    (0 <= k <= Z.of_nat (Nat.min (List.length u) (List.length v)))%Z ->
    (Z.to_nat (Z.of_nat (Nat.min (List.length u) (List.length v)) - k)
     < fuel)%nat ->
    DotProductGeneric_for fuel u v n k total = None.
Proof.
  intros Hshort fuel.
  induction fuel as [|fuel IH]; intros k total Hk Hfuel; [lia|].
  cbn [DotProductGeneric_for].
  destruct (Z.ltb_spec k n) as [_|Hge]; [|lia].
  destruct (nth_error u (Z.to_nat k)) as [uk|] eqn:Eu; [|reflexivity].
  destruct (nth_error v (Z.to_nat k)) as [vk|] eqn:Ev; [|reflexivity].
  assert (Z.to_nat k < List.length u)%nat
    by (apply nth_error_Some; congruence).
  assert (Z.to_nat k < List.length v)%nat
    by (apply nth_error_Some; congruence).
  apply IH; lia.
Qed.

(** X13.  The generic kernel accumulates from index 0 upwards: the result
    for [n + 1] elements is the result for [n] elements plus the product of
    the elements of index [n], added last. *)
Theorem DotProductGeneric_step (u v : list float) (n : Z) :
  (0 <= n)%Z ->
  (n < Z.of_nat (List.length u))%Z ->
  (n < Z.of_nat (List.length v))%Z ->
  exists total,
    DotProductGeneric u v n = Some total /\
    DotProductGeneric u v (n + 1)%Z
    = Some (total + nth (Z.to_nat n) u 0 * nth (Z.to_nat n) v 0).
Proof.
  intros Hn Hu Hv. exists (reference_sum u v (Z.to_nat n)).
  rewrite !DotProductGeneric_reference by lia.
  replace (Z.to_nat (n + 1)%Z) with (S (Z.to_nat n)) by lia.
  rewrite reference_sum_S. split; reflexivity.
Qed.

(** X14.  The generic kernel reads the first [n] elements only: what
    follows them in either vector does not change the result. *)
Theorem DotProductGeneric_reads_prefix (u u' v v' : list float) (n : Z) :
  (0 <= n)%Z ->
  (n <= Z.of_nat (List.length u))%Z ->
  (n <= Z.of_nat (List.length v))%Z ->
  DotProductGeneric (u ++ u')%list (v ++ v')%list n
  = DotProductGeneric u v n.
Proof.
  intros Hn Hu Hv.
  rewrite !DotProductGeneric_reference by (rewrite ?length_app; lia).
  f_equal. unfold reference_sum. apply fold_left_agree.
  intros acc k Hin. apply in_seq in Hin.
  rewrite !app_nth1 by lia. reflexivity.
Qed.

(** X15.  The generic kernel checks no bound itself.  With [n <= 0] it
    runs no iteration and returns 0.0 whatever the vectors, empty ones
    included; with both vectors of at least [n] elements it returns the sum
    in index order; otherwise the loop reads past the shorter vector and
    there is no result. *)
Theorem DotProductGeneric_result (u v : list float) (n : Z) :
  DotProductGeneric u v n
  = if (n <=? 0)%Z then Some 0
    else if ((n <=? Z.of_nat (List.length u))%Z
             && (n <=? Z.of_nat (List.length v))%Z)%bool
         then Some (reference_sum u v (Z.to_nat n))
         else None.
Proof.
  destruct (Z.leb_spec n 0) as [Hn|Hn].
  { apply DotProductGeneric_negative, Hn. }
  destruct (Z.leb_spec n (Z.of_nat (List.length u))) as [Hu|Hu];
    destruct (Z.leb_spec n (Z.of_nat (List.length v))) as [Hv|Hv];
    cbn [andb];
    try (apply DotProductGeneric_reference; lia);
    unfold DotProductGeneric; apply DotProductGeneric_for_overrun; lia.
Qed.

Close Scope float_scope.

End Further.

(* ================================================================== *)
(** ** Further runs on the sample machines *)

(** X3 with [native] in the variable on a target that is not x86. *)
Lemma Update_accepted_method_witness :
  In (c_str (dotproduct
               (set_dotproduct "native" (start Portable cpu_silent))))
     (accepted_methods Portable) /\
  DotProduct (run_Update Portable
                (set_dotproduct "native" (start Portable cpu_silent)))
    = Some DotProductBackwards /\
  dotproduct (run_Update Portable
                (set_dotproduct "native" (start Portable cpu_silent)))
    = "native" /\
  tprintf_out (run_Update Portable
                 (set_dotproduct "native" (start Portable cpu_silent)))
    = [].
Proof.
  assert (In (c_str (dotproduct
                       (set_dotproduct "native" (start Portable cpu_silent))))
             (accepted_methods Portable)) as Hin
    by (right; left; reflexivity).
  split; [exact Hin|].
  exact (Update_accepted_method (kernels := stand_ins) Portable
           (set_dotproduct "native" (start Portable cpu_silent)) Hin).
Defined.

(** X9 on an Android build for x86-64 with a GNU compiler, run on a
    processor that has AVX512. *)
Lemma Android_build_is_generic_witness :
  ANDROID_BUILD (mkMacros true false false true true) = true /\
  target_of (mkMacros true false false true true) = Some Portable /\
  flags (start Portable cpu_avx512) = (false, false, false, false, false) /\
  DotProduct (start Portable cpu_avx512) = Some DotProductGeneric.
Proof.
  split; [reflexivity|].
  exact (Android_build_is_generic (kernels := stand_ins)
           (mkMacros true false false true true) cpu_avx512 eq_refl).
Defined.

(** X11 after an override and a rejected value on a processor with AVX512. *)
Lemma reachable_flags_fixed_witness :
  reachable (kernels := stand_ins) X86_GNUC cpu_avx512
    (run_apply X86_GNUC "fma"
       (run_apply X86_GNUC "sse" (start X86_GNUC cpu_avx512))) /\
  flags (run_apply X86_GNUC "fma"
           (run_apply X86_GNUC "sse" (start X86_GNUC cpu_avx512)))
    = flags (start X86_GNUC cpu_avx512).
Proof.
  assert (reachable (kernels := stand_ins) X86_GNUC cpu_avx512
            (run_apply X86_GNUC "fma"
               (run_apply X86_GNUC "sse" (start X86_GNUC cpu_avx512))))
    as Hreach by (do 2 apply reach_apply; apply reach_init).
  split; [exact Hreach|].
  exact (reachable_flags_fixed (kernels := stand_ins) X86_GNUC cpu_avx512 _
           Hreach).
Defined.

(** X12 with the overrides [avx] and [native] on a target that is not
    x86. *)
Lemma portable_runs_bind_no_vector_kernel_witness :
  x86 Portable = false /\
  reachable (kernels := stand_ins) Portable cpu_avx512
    (run_apply Portable "native"
       (run_apply Portable "avx" (start Portable cpu_avx512))) /\
  (DotProduct (run_apply Portable "native"
                 (run_apply Portable "avx" (start Portable cpu_avx512)))
     = Some DotProductGeneric \/
   DotProduct (run_apply Portable "native"
                 (run_apply Portable "avx" (start Portable cpu_avx512)))
     = Some DotProductBackwards).
Proof.
  assert (reachable (kernels := stand_ins) Portable cpu_avx512
            (run_apply Portable "native"
               (run_apply Portable "avx" (start Portable cpu_avx512))))
    as Hreach by (do 2 apply reach_apply; apply reach_init).
  split; [reflexivity|]. split; [exact Hreach|].
  exact (portable_runs_bind_no_vector_kernel (kernels := stand_ins)
           Portable cpu_avx512 _ eq_refl Hreach).
Defined.

(** X13 from two to three elements. *)
Lemma DotProductGeneric_step_witness :
  (0 <= 2)%Z /\
  (2 < Z.of_nat (List.length [1; 2; 3]%float))%Z /\
  (2 < Z.of_nat (List.length [4; 5; 6]%float))%Z /\
  exists total,
    DotProductGeneric [1; 2; 3]%float [4; 5; 6]%float 2 = Some total /\
    DotProductGeneric [1; 2; 3]%float [4; 5; 6]%float (2 + 1)
    = Some (total + nth (Z.to_nat 2) [1; 2; 3]%float 0
                    * nth (Z.to_nat 2) [4; 5; 6]%float 0)%float.
Proof.
  assert (0 <= 2)%Z as H0 by lia.
  assert (2 < Z.of_nat (List.length [1; 2; 3]%float))%Z as Hu by (cbn; lia).
  assert (2 < Z.of_nat (List.length [4; 5; 6]%float))%Z as Hv by (cbn; lia).
  split; [exact H0|]. split; [exact Hu|]. split; [exact Hv|].
  exact (DotProductGeneric_step [1; 2; 3]%float [4; 5; 6]%float 2 H0 Hu Hv).
Defined.

(** X14 with two elements read from longer vectors. *)
Lemma DotProductGeneric_reads_prefix_witness :
  (0 <= 2)%Z /\
  (2 <= Z.of_nat (List.length [1; 2]%float))%Z /\
  (2 <= Z.of_nat (List.length [4; 5]%float))%Z /\
  DotProductGeneric ([1; 2] ++ [3])%list%float ([4; 5] ++ [6; 7])%list%float 2
  = DotProductGeneric [1; 2]%float [4; 5]%float 2.
Proof.
  assert (0 <= 2)%Z as H0 by lia.
  assert (2 <= Z.of_nat (List.length [1; 2]%float))%Z as Hu by (cbn; lia).
  assert (2 <= Z.of_nat (List.length [4; 5]%float))%Z as Hv by (cbn; lia).
  split; [exact H0|]. split; [exact Hu|]. split; [exact Hv|].
  exact (DotProductGeneric_reads_prefix
           [1; 2]%float [3]%float [4; 5]%float [6; 7]%float 2 H0 Hu Hv).
Defined.
